(** * Facebook Conversions API: normalization and hashing of [user_data]

    A shallow embedding of
    [packages/destination-actions/src/destinations/facebook-conversions-api/fb-capi-user-data.ts]
    ([isHashedInformation], [hash], [normalize_user_data], [hash_user_data]).

    Strings.  A JavaScript string is a sequence of UTF-16 code units.  The
    development works on the strings whose code units are all below 256
    (Basic Latin and Latin-1 Supplement), written as Rocq [string]s: the
    character [c] stands for the code unit [N_of_ascii c].  On that range the
    regular-expression classes [\s], [\D] and [[0-9abcdef]] (flag [i]) and
    [String.prototype.toLowerCase] are closed and act code unit by code unit,
    and they are written out below exactly as ECMAScript defines them there.

    Mutation.  [normalize_user_data] assigns to the fields of
    [payload.user_data] in place.  Each guarded assignment of the source is a
    step [UD.t -> UD.t]; [normalize_user_data] is their composition in source
    order, and [hash_user_data] returns the payload it has mutated next to
    the object it builds, so that a second call on the same object can be
    stated.

    Missing parts.  [US_STATE_CODES] and [COUNTRY_CODES] (from [./constants])
    and the digest primitive are parameters of the section [Engine];
    [processHashingV2] (from [../../lib/hashing-utils]) is modelled from the
    specification. *)

From Stdlib Require Import NArith ZArith Bool List Ascii String Lia.
From stdpp Require Import base option list gmap strings.
Import ListNotations.

Local Open Scope string_scope.

(** ** Code units and character classes *)

Definition code (c : ascii) : N := N_of_ascii c.

Definition in_range (lo hi : N) (c : ascii) : bool :=
  ((lo <=? code c) && (code c <=? hi))%N.

(** [\s]: TAB, LF, VT, FF, CR, SPACE and NO-BREAK SPACE are the white space
    and line terminator code units below 256. *)
Definition is_whitespace (c : ascii) : bool :=
  in_range 9 13 c || (code c =? 32)%N || (code c =? 160)%N.

(** [\d] is [[0-9]]; [\D] is its complement. *)
Definition is_digit (c : ascii) : bool := in_range 48 57 c.

Definition is_non_digit (c : ascii) : bool := negb (is_digit c).

(** [[0-9abcdef]] under the flag [i] (no flag [u]): a code unit matches when
    its canonical (upper-case) form is that of a class member, and a code
    unit of 128 or more is never canonicalised to one below 128. *)
Definition is_hex (c : ascii) : bool :=
  in_range 48 57 c || in_range 97 102 c || in_range 65 70 c.

(** The code units with a lower-case mapping: A-Z, and U+00C0-U+00DE except
    U+00D7 (the multiplication sign). *)
Definition is_upper (c : ascii) : bool :=
  in_range 65 90 c || in_range 192 214 c || in_range 216 222 c.

Definition lower_char (c : ascii) : ascii :=
  if is_upper c then ascii_of_N (code c + 32) else c.

(** ** String operations of the runtime *)

(** [s.toLowerCase()] *)
Fixpoint toLowerCase (s : string) : string :=
  match s with
  | EmptyString => EmptyString
  | String c t => String (lower_char c) (toLowerCase t)
  end.

(** [s.replace(re, '')] for a global regular expression [re] that matches
    one code unit of the class [cls]: every match is deleted. *)
Fixpoint replace_all (cls : ascii -> bool) (s : string) : string :=
  match s with
  | EmptyString => EmptyString
  | String c t => if cls c then replace_all cls t else String c (replace_all cls t)
  end.

Fixpoint string_forallb (f : ascii -> bool) (s : string) : bool :=
  match s with
  | EmptyString => true
  | String c t => f c && string_forallb f t
  end.

(** Truthiness of a string value: only the empty string is falsy. *)
Definition truthy (s : string) : bool :=
  match s with
  | EmptyString => false
  | String _ _ => true
  end.

(** ** [isHashedInformation] *)

(** The pattern [[0-9abcdef]{64}] matched at the start of [s], with the
    repetition count as [n]. *)
Fixpoint match_hex_here (n : nat) (s : string) : bool :=
  match n with
  | O => true
  | S n' =>
      match s with
      | EmptyString => false
      | String c t => is_hex c && match_hex_here n' t
      end
  end.

(** [re.test(s)] on a fresh regular expression ([lastIndex] is 0): the
    pattern is tried at every start position, left to right. *)
Fixpoint regexp_test (n : nat) (s : string) : bool :=
  match_hex_here n s ||
  match s with
  | EmptyString => false
  | String _ t => regexp_test n t
  end.

Definition isHashedInformation (information : string) : bool :=
  regexp_test 64 information.

(** ** The data model *)

(** [string | string[]]: the type of [externalId] and of the argument and
    result of [hash]. *)
Inductive StringOrArray : Type :=
| Str (s : string)
| Arr (l : list string).

(** [payload.user_data].  An absent or [undefined] property is [None]. *)
Module UD.
Record t : Type := mk {
  externalId : option StringOrArray;
  email : option string;
  phone : option string;
  gender : option string;
  dateOfBirth : option string;
  lastName : option string;
  firstName : option string;
  city : option string;
  state : option string;
  zip : option string;
  country : option string;
  client_ip_address : option string;
  client_user_agent : option string;
  fbc : option string;
  fbp : option string;
  subscriptionID : option string;
  leadID : option Z;
  fbLoginID : option Z;
  anonId : option string;
  madId : option string;
  partner_id : option string;
  partner_name : option string
}.

(** Field assignments [payload.user_data.f = v]. *)
Definition set_externalId (v : option StringOrArray) (u : t) : t :=
  mk v (email u) (phone u) (gender u) (dateOfBirth u) (lastName u)
     (firstName u) (city u) (state u) (zip u) (country u)
     (client_ip_address u) (client_user_agent u) (fbc u) (fbp u)
     (subscriptionID u) (leadID u) (fbLoginID u) (anonId u) (madId u)
     (partner_id u) (partner_name u).

Definition set_email (v : option string) (u : t) : t :=
  mk (externalId u) v (phone u) (gender u) (dateOfBirth u) (lastName u)
     (firstName u) (city u) (state u) (zip u) (country u)
     (client_ip_address u) (client_user_agent u) (fbc u) (fbp u)
     (subscriptionID u) (leadID u) (fbLoginID u) (anonId u) (madId u)
     (partner_id u) (partner_name u).

Definition set_phone (v : option string) (u : t) : t :=
  mk (externalId u) (email u) v (gender u) (dateOfBirth u) (lastName u)
     (firstName u) (city u) (state u) (zip u) (country u)
     (client_ip_address u) (client_user_agent u) (fbc u) (fbp u)
     (subscriptionID u) (leadID u) (fbLoginID u) (anonId u) (madId u)
     (partner_id u) (partner_name u).

Definition set_gender (v : option string) (u : t) : t :=
  mk (externalId u) (email u) (phone u) v (dateOfBirth u) (lastName u)
     (firstName u) (city u) (state u) (zip u) (country u)
     (client_ip_address u) (client_user_agent u) (fbc u) (fbp u)
     (subscriptionID u) (leadID u) (fbLoginID u) (anonId u) (madId u)
     (partner_id u) (partner_name u).

Definition set_lastName (v : option string) (u : t) : t :=
  mk (externalId u) (email u) (phone u) (gender u) (dateOfBirth u) v
     (firstName u) (city u) (state u) (zip u) (country u)
     (client_ip_address u) (client_user_agent u) (fbc u) (fbp u)
     (subscriptionID u) (leadID u) (fbLoginID u) (anonId u) (madId u)
     (partner_id u) (partner_name u).

Definition set_firstName (v : option string) (u : t) : t :=
  mk (externalId u) (email u) (phone u) (gender u) (dateOfBirth u) (lastName u)
     v (city u) (state u) (zip u) (country u)
     (client_ip_address u) (client_user_agent u) (fbc u) (fbp u)
     (subscriptionID u) (leadID u) (fbLoginID u) (anonId u) (madId u)
     (partner_id u) (partner_name u).

Definition set_city (v : option string) (u : t) : t :=
  mk (externalId u) (email u) (phone u) (gender u) (dateOfBirth u) (lastName u)
     (firstName u) v (state u) (zip u) (country u)
     (client_ip_address u) (client_user_agent u) (fbc u) (fbp u)
     (subscriptionID u) (leadID u) (fbLoginID u) (anonId u) (madId u)
     (partner_id u) (partner_name u).

Definition set_state (v : option string) (u : t) : t :=
  mk (externalId u) (email u) (phone u) (gender u) (dateOfBirth u) (lastName u)
     (firstName u) (city u) v (zip u) (country u)
     (client_ip_address u) (client_user_agent u) (fbc u) (fbp u)
     (subscriptionID u) (leadID u) (fbLoginID u) (anonId u) (madId u)
     (partner_id u) (partner_name u).

Definition set_zip (v : option string) (u : t) : t :=
  mk (externalId u) (email u) (phone u) (gender u) (dateOfBirth u) (lastName u)
     (firstName u) (city u) (state u) v (country u)
     (client_ip_address u) (client_user_agent u) (fbc u) (fbp u)
     (subscriptionID u) (leadID u) (fbLoginID u) (anonId u) (madId u)
     (partner_id u) (partner_name u).

Definition set_country (v : option string) (u : t) : t :=
  mk (externalId u) (email u) (phone u) (gender u) (dateOfBirth u) (lastName u)
     (firstName u) (city u) (state u) (zip u) v
     (client_ip_address u) (client_user_agent u) (fbc u) (fbp u)
     (subscriptionID u) (leadID u) (fbLoginID u) (anonId u) (madId u)
     (partner_id u) (partner_name u).
End UD.

(** [type UserData = Pick<Payload, 'user_data'>] *)
Record UserData : Type := { user_data : UD.t }.

(** The object literal that [hash_user_data] returns. *)
Module Out.
Record t : Type := mk {
  em : option StringOrArray;
  ph : option StringOrArray;
  ge : option StringOrArray;
  db : option StringOrArray;
  ln : option StringOrArray;
  fn : option StringOrArray;
  ct : option StringOrArray;
  st : option StringOrArray;
  zp : option StringOrArray;
  country : option StringOrArray;
  external_id : option StringOrArray;
  client_ip_address : option string;
  client_user_agent : option string;
  fbc : option string;
  fbp : option string;
  subscription_id : option string;
  lead_id : option Z;
  anon_id : option string;
  madid : option string;
  fb_login_id : option Z;
  partner_id : option string;
  partner_name : option string
}.
End Out.

(** [Map.prototype.has] and [Map.prototype.get] on a [Map<string, string>]. *)
Definition Map_has (m : gmap string string) (k : string) : bool :=
  bool_decide (is_Some (m !! k)).

Definition Map_get (m : gmap string string) (k : string) : option string :=
  m !! k.

(** lodash [isEmpty] on [string | string[] | undefined]. *)
Definition isEmpty (v : option StringOrArray) : bool :=
  match v with
  | None => true
  | Some (Str s) => (String.length s =? 0)%nat
  | Some (Arr l) => (List.length l =? 0)%nat
  end.

(** [s.replace(/\s/g, '').toLowerCase()] *)
Definition strip_lower (s : string) : string :=
  toLowerCase (replace_all is_whitespace s).

(** The [switch] on the normalized gender. *)
Definition gender_switch (g : string) : string :=
  if String.eqb g "male" then "m"
  else if String.eqb g "female" then "f"
  else g.

(** ** Vocabulary of the properties *)

(** A string is clean when it holds no upper-case and no white-space code
    unit. *)
Definition clean_char (c : ascii) : bool :=
  negb (is_whitespace c) && negb (is_upper c).

Definition is_clean (s : string) : bool := string_forallb clean_char s.

(** [s] contains [n] consecutive hexadecimal characters somewhere. *)
Definition contains_hex_run (n : nat) (s : string) : Prop :=
  exists pre run post,
    s = pre +:+ run +:+ post /\
    String.length run = n /\
    string_forallb is_hex run = true.

(** A field that is absent, [undefined] or the empty string. *)
Definition blank (v : option string) : Prop := v = None \/ v = Some "".

(** What is asked of a code table.  Every code it maps to is clean; for
    idempotence, a code that is itself a key is mapped to itself. *)
Definition clean_table (table : gmap string string) : Prop :=
  map_Forall (fun _ v => is_clean v = true) table.

Definition canonical_table (table : gmap string string) : Prop :=
  map_Forall
    (fun _ v => is_clean v = true /\ (table !! v = None \/ table !! v = Some v))
    table.

(** Two strings that read the same when case and white space are
    ignored: code units are paired when they have the same lower-case form,
    and a white-space code unit may stand unpaired on either side. *)
Inductive same_text : string -> string -> Prop :=
| same_text_empty : same_text "" ""
| same_text_char (c1 c2 : ascii) (s1 s2 : string) :
    lower_char c1 = lower_char c2 -> same_text s1 s2 ->
    same_text (String c1 s1) (String c2 s2)
| same_text_space_l (w : ascii) (s1 s2 : string) :
    is_whitespace w = true -> same_text s1 s2 -> same_text (String w s1) s2
| same_text_space_r (w : ascii) (s1 s2 : string) :
    is_whitespace w = true -> same_text s1 s2 -> same_text s1 (String w s2).

(** The effect of each step of [normalize_user_data] on the field it
    guards (proved equal to the steps below). *)
Definition field_strip_lower (v : option string) : option string :=
  match v with
  | Some s => if truthy s then Some (strip_lower s) else v
  | None => None
  end.

Definition field_phone (v : option string) : option string :=
  match v with
  | Some s =>
      if truthy s && negb (isHashedInformation s)
      then Some (replace_all is_non_digit s)
      else v
  | None => None
  end.

Definition field_gender (v : option string) : option string :=
  match v with
  | Some s => if truthy s then Some (gender_switch (strip_lower s)) else v
  | None => None
  end.

Definition field_coded (table : gmap string string) (v : option string)
    : option string :=
  match v with
  | Some s =>
      if truthy s then
        match table !! strip_lower s with
        | Some c => Some c
        | None => Some (strip_lower s)
        end
      else v
  | None => None
  end.

Definition field_externalId (v : option StringOrArray) : option StringOrArray :=
  match v with
  | Some (Str s) => if truthy s then Some (Arr [strip_lower s]) else v
  | Some (Arr l) =>
      match l with
      | [] => v
      | _ :: _ => Some (Arr (map strip_lower l))
      end
  | None => None
  end.

(** ** Sample data for concrete instances *)

Definition no_user_data : UD.t :=
  UD.mk None None None None None None None None None None None
        None None None None None None None None None None None.

Definition sample_states : gmap string string :=
  {[ "california" := "ca"; "newyork" := "ny" ]}.

Definition sample_countries : gmap string string :=
  {[ "unitedstates" := "us"; "germany" := "de" ]}.

Definition sample_payload : UserData :=
  {| user_data :=
       UD.mk (Some (Str "User123")) (Some " Test@Example.COM ")
             (Some "+1 (555) 123-4567") (Some " Male ") (Some "19971226")
             (Some "Doe") (Some "Jane") (Some "Menlo Park")
             (Some "California") (Some "94025") (Some "United States")
             (Some "111.111.111.111") (Some "test-user-agent")
             (Some "fb.1.1554763741205.AbCdEf") (Some "fb.1.1558571054389.1098115397")
             (Some "sub_1") (Some 42%Z) (Some 7%Z) (Some "anon_1")
             (Some "38400000-8CF0-11BD-B23E-10B96E40000D")
             (Some "partner_1") (Some "Partner One") |}.

(** A stand-in for the digest primitive. *)
Definition sample_digest (s : string) : string := "sha256:" +:+ s.

Section Engine.

(** The lookup tables of [./constants]. *)
Variable US_STATE_CODES : gmap string string.
Variable COUNTRY_CODES : gmap string string.

(** The digest primitive: SHA-256 of the string, as lower-case hexadecimal. *)
Variable sha256_hex : string -> string.

(** Modelled from the spec: [processHashingV2(value, 'sha256', 'hex')] of
    [lib/hashing-utils], which is not among the sources.  The hasher is a
    deterministic digest of the normalized value that skips a value already
    matching the 64-hex-character pattern. *)
Definition processHashingV2 (value : string) : string :=
  if isHashedInformation value then value else sha256_hex value.

(** ** [hash] *)

Definition hash (value : option StringOrArray) : option StringOrArray :=
  match value with
  | None => None
  | Some (Str s) =>
      if (String.length s =? 0)%nat then None
      else Some (Str (processHashingV2 s))
  | Some (Arr l) =>
      if (List.length l =? 0)%nat then None
      else Some (Arr (map processHashingV2 l))
  end.

(** ** [normalize_user_data], one guarded assignment at a time *)

(** [if (f) f = f.replace(/\s/g, '').toLowerCase()] for a field with getter
    [get] and setter [set]. *)
Definition step_strip_lower (get : UD.t -> option string)
    (set : option string -> UD.t -> UD.t) (u : UD.t) : UD.t :=
  match get u with
  | Some s => if truthy s then set (Some (strip_lower s)) u else u
  | None => u
  end.

Definition step_email : UD.t -> UD.t := step_strip_lower UD.email UD.set_email.

Definition step_phone (u : UD.t) : UD.t :=
  match UD.phone u with
  | Some s =>
      if truthy s && negb (isHashedInformation s)
      then UD.set_phone (Some (replace_all is_non_digit s)) u
      else u
  | None => u
  end.

Definition step_gender (u : UD.t) : UD.t :=
  match UD.gender u with
  | Some s =>
      if truthy s then UD.set_gender (Some (gender_switch (strip_lower s))) u
      else u
  | None => u
  end.

Definition step_lastName : UD.t -> UD.t :=
  step_strip_lower UD.lastName UD.set_lastName.

Definition step_firstName : UD.t -> UD.t :=
  step_strip_lower UD.firstName UD.set_firstName.

Definition step_city : UD.t -> UD.t := step_strip_lower UD.city UD.set_city.

(** The field is first lower-cased, then replaced by the table's entry when
    the table has the lower-cased text as a key. *)
Definition step_coded (table : gmap string string)
    (get : UD.t -> option string)
    (set : option string -> UD.t -> UD.t) (u : UD.t) : UD.t :=
  match get u with
  | Some s =>
      if truthy s then
        let v := strip_lower s in
        if Map_has table v then set (Map_get table v) u
        else set (Some v) u
      else u
  | None => u
  end.

Definition step_state : UD.t -> UD.t :=
  step_coded US_STATE_CODES UD.state UD.set_state.

Definition step_zip : UD.t -> UD.t := step_strip_lower UD.zip UD.set_zip.

Definition step_country : UD.t -> UD.t :=
  step_coded COUNTRY_CODES UD.country UD.set_country.

Definition step_externalId (u : UD.t) : UD.t :=
  if negb (isEmpty (UD.externalId u)) then
    let coerced :=
      match UD.externalId u with
      | Some (Str s) => Some (Arr [s])
      | other => other
      end in
    match coerced with
    | Some (Arr l) => UD.set_externalId (Some (Arr (map strip_lower l))) u
    | _ => u
    end
  else u.

Definition normalize_user_data (payload : UserData) : UserData :=
  let u := user_data payload in
  let u := step_email u in
  let u := step_phone u in
  let u := step_gender u in
  let u := step_lastName u in
  let u := step_firstName u in
  let u := step_city u in
  let u := step_state u in
  let u := step_zip u in
  let u := step_country u in
  let u := step_externalId u in
  {| user_data := u |}.

(** ** [hash_user_data] *)

(** The result is the returned object together with the payload as the call
    leaves it. *)
Definition hash_user_data (payload : UserData) : Out.t * UserData :=
  let payload := normalize_user_data payload in
  let u := user_data payload in
  ({| Out.em := hash (Str <$> UD.email u);
      Out.ph := hash (Str <$> UD.phone u);
      Out.ge := hash (Str <$> UD.gender u);
      Out.db := hash (Str <$> UD.dateOfBirth u);
      Out.ln := hash (Str <$> UD.lastName u);
      Out.fn := hash (Str <$> UD.firstName u);
      Out.ct := hash (Str <$> UD.city u);
      Out.st := hash (Str <$> UD.state u);
      Out.zp := hash (Str <$> UD.zip u);
      Out.country := hash (Str <$> UD.country u);
      Out.external_id := hash (UD.externalId u);
      Out.client_ip_address := UD.client_ip_address u;
      Out.client_user_agent := UD.client_user_agent u;
      Out.fbc := UD.fbc u;
      Out.fbp := UD.fbp u;
      Out.subscription_id := UD.subscriptionID u;
      Out.lead_id := UD.leadID u;
      Out.anon_id := UD.anonId u;
      Out.madid := UD.madId u;
      Out.fb_login_id := UD.fbLoginID u;
      Out.partner_id := UD.partner_id u;
      Out.partner_name := UD.partner_name u |},
   payload).

(** * Properties *)

(** ** Code units *)

Ltac each_code_unit c :=
  destruct c as [[] [] [] [] [] [] [] []]; vm_compute; try reflexivity;
  try discriminate; intros; try discriminate.

Lemma lower_char_clean (c : ascii) :
  is_whitespace c = false -> clean_char (lower_char c) = true.
Proof. each_code_unit c. Qed.

Lemma clean_char_lower (c : ascii) : clean_char c = true -> lower_char c = c.
Proof. each_code_unit c. Qed.

Lemma clean_char_not_ws (c : ascii) :
  clean_char c = true -> is_whitespace c = false.
Proof. each_code_unit c. Qed.

Lemma digit_clean (c : ascii) : is_digit c = true -> clean_char c = true.
Proof. each_code_unit c. Qed.

Lemma hex_chars (c : ascii) :
  is_hex c =
  existsb (Ascii.eqb c) (list_ascii_of_string "0123456789abcdefABCDEF").
Proof. each_code_unit c. Qed.

(** ** Strings *)

Lemma replace_all_rejects (cls : ascii -> bool) (s : string) :
  string_forallb (fun c => negb (cls c)) (replace_all cls s) = true.
Proof.
  induction s as [|c t IH]; simpl; [reflexivity|].
  destruct (cls c) eqn:E; simpl; [exact IH|].
  rewrite E, IH. reflexivity.
Qed.

Lemma replace_all_none (cls : ascii -> bool) (s : string) :
  string_forallb (fun c => negb (cls c)) s = true -> replace_all cls s = s.
Proof.
  induction s as [|c t IH]; simpl; [reflexivity|].
  intros H. apply andb_prop in H as [Hc Ht].
  apply negb_true_iff in Hc. rewrite Hc, (IH Ht). reflexivity.
Qed.

Lemma replace_all_idem (cls : ascii -> bool) (s : string) :
  replace_all cls (replace_all cls s) = replace_all cls s.
Proof. apply replace_all_none, replace_all_rejects. Qed.

(** [replace_all] is the filter that keeps the code units outside the
    class, in their order. *)
Lemma replace_all_filter (cls : ascii -> bool) (s : string) :
  list_ascii_of_string (replace_all cls s) =
  List.filter (fun c => negb (cls c)) (list_ascii_of_string s).
Proof.
  induction s as [|c t IH]; simpl; [reflexivity|].
  destruct (cls c); simpl; rewrite IH; reflexivity.
Qed.

Lemma toLowerCase_length (s : string) :
  String.length (toLowerCase s) = String.length s.
Proof. induction s as [|c t IH]; simpl; congruence. Qed.

Lemma strip_lower_clean (s : string) : is_clean (strip_lower s) = true.
Proof.
  unfold strip_lower, is_clean.
  induction s as [|c t IH]; simpl; [reflexivity|].
  destruct (is_whitespace c) eqn:E; simpl; [exact IH|].
  rewrite (lower_char_clean c E), IH. reflexivity.
Qed.

Lemma clean_strip_lower (s : string) : is_clean s = true -> strip_lower s = s.
Proof.
  unfold strip_lower, is_clean.
  induction s as [|c t IH]; simpl; [reflexivity|].
  intros H. apply andb_prop in H as [Hc Ht].
  rewrite (clean_char_not_ws c Hc). simpl.
  rewrite (clean_char_lower c Hc), (IH Ht). reflexivity.
Qed.

Lemma strip_lower_idem (s : string) :
  strip_lower (strip_lower s) = strip_lower s.
Proof. apply clean_strip_lower, strip_lower_clean. Qed.

Lemma strip_lower_no_whitespace (s : string) :
  string_forallb (fun c => negb (is_whitespace c)) (strip_lower s) = true.
Proof.
  pose proof (strip_lower_clean s) as H. unfold is_clean in H.
  induction (strip_lower s) as [|c t IH]; simpl in *; [reflexivity|].
  apply andb_prop in H as [Hc Ht].
  rewrite (clean_char_not_ws c Hc), (IH Ht). reflexivity.
Qed.

Lemma digits_clean (s : string) :
  is_clean (replace_all is_non_digit s) = true.
Proof.
  unfold is_clean.
  induction s as [|c t IH]; simpl; [reflexivity|].
  unfold is_non_digit at 1. destruct (is_digit c) eqn:E; simpl; [|exact IH].
  rewrite (digit_clean c E), IH. reflexivity.
Qed.

Lemma gender_switch_clean (g : string) :
  is_clean g = true -> is_clean (gender_switch g) = true.
Proof.
  intros H. unfold gender_switch.
  destruct (String.eqb g "male"); [reflexivity|].
  destruct (String.eqb g "female"); [reflexivity|exact H].
Qed.

Lemma gender_switch_idem (g : string) :
  gender_switch (gender_switch g) = gender_switch g.
Proof.
  unfold gender_switch.
  destruct (String.eqb g "male") eqn:Em; [reflexivity|].
  destruct (String.eqb g "female") eqn:Ef; [reflexivity|].
  rewrite Em, Ef. reflexivity.
Qed.

Lemma truthy_length (s : string) :
  (String.length s =? 0)%nat = negb (truthy s).
Proof. destruct s; reflexivity. Qed.

(** ** Each step rewrites its own field *)

Lemma step_email_field (u : UD.t) :
  step_email u = UD.set_email (field_strip_lower (UD.email u)) u.
Proof.
  unfold step_email, step_strip_lower, field_strip_lower.
  destruct u; simpl; repeat case_match; reflexivity.
Qed.

Lemma step_phone_field (u : UD.t) :
  step_phone u = UD.set_phone (field_phone (UD.phone u)) u.
Proof.
  unfold step_phone, field_phone.
  destruct u; simpl; repeat case_match; reflexivity.
Qed.

Lemma step_gender_field (u : UD.t) :
  step_gender u = UD.set_gender (field_gender (UD.gender u)) u.
Proof.
  unfold step_gender, field_gender.
  destruct u; simpl; repeat case_match; reflexivity.
Qed.

Lemma step_lastName_field (u : UD.t) :
  step_lastName u = UD.set_lastName (field_strip_lower (UD.lastName u)) u.
Proof.
  unfold step_lastName, step_strip_lower, field_strip_lower.
  destruct u; simpl; repeat case_match; reflexivity.
Qed.

Lemma step_firstName_field (u : UD.t) :
  step_firstName u = UD.set_firstName (field_strip_lower (UD.firstName u)) u.
Proof.
  unfold step_firstName, step_strip_lower, field_strip_lower.
  destruct u; simpl; repeat case_match; reflexivity.
Qed.

Lemma step_city_field (u : UD.t) :
  step_city u = UD.set_city (field_strip_lower (UD.city u)) u.
Proof.
  unfold step_city, step_strip_lower, field_strip_lower.
  destruct u; simpl; repeat case_match; reflexivity.
Qed.

Lemma step_zip_field (u : UD.t) :
  step_zip u = UD.set_zip (field_strip_lower (UD.zip u)) u.
Proof.
  unfold step_zip, step_strip_lower, field_strip_lower.
  destruct u; simpl; repeat case_match; reflexivity.
Qed.

Lemma Map_has_get (table : gmap string string) (k : string) :
  (if Map_has table k then Map_get table k else Some k) =
  match table !! k with
  | Some c => Some c
  | None => Some k
  end.
Proof.
  unfold Map_has, Map_get. case_bool_decide as H.
  - destruct H as [c ->]. reflexivity.
  - destruct (table !! k) eqn:E; [|reflexivity].
    exfalso. apply H. eexists. reflexivity.
Qed.

Lemma step_state_field (u : UD.t) :
  step_state u = UD.set_state (field_coded US_STATE_CODES (UD.state u)) u.
Proof.
  unfold step_state, step_coded, field_coded.
  destruct u as [? ? ? ? ? ? ? ? st ? ? ? ? ? ? ? ? ? ? ? ? ?]; simpl.
  destruct st as [s|]; [|reflexivity].
  destruct (truthy s); [|reflexivity].
  rewrite <- Map_has_get. destruct (Map_has _ _); reflexivity.
Qed.

Lemma step_country_field (u : UD.t) :
  step_country u = UD.set_country (field_coded COUNTRY_CODES (UD.country u)) u.
Proof.
  unfold step_country, step_coded, field_coded.
  destruct u as [? ? ? ? ? ? ? ? ? ? co ? ? ? ? ? ? ? ? ? ? ?]; simpl.
  destruct co as [s|]; [|reflexivity].
  destruct (truthy s); [|reflexivity].
  rewrite <- Map_has_get. destruct (Map_has _ _); reflexivity.
Qed.

Lemma step_externalId_field (u : UD.t) :
  step_externalId u =
  UD.set_externalId (field_externalId (UD.externalId u)) u.
Proof.
  unfold step_externalId, field_externalId, isEmpty.
  destruct u as [ext ? ? ? ? ? ? ? ? ? ? ? ? ? ? ? ? ? ? ? ? ?]; simpl.
  destruct ext as [[s|l]|]; [destruct s|destruct l|]; reflexivity.
Qed.

(** [normalize_user_data], field by field. *)
Lemma normalize_user_data_fields (payload : UserData) :
  normalize_user_data payload =
  let u := user_data payload in
  {| user_data :=
       UD.mk (field_externalId (UD.externalId u))
             (field_strip_lower (UD.email u))
             (field_phone (UD.phone u))
             (field_gender (UD.gender u))
             (UD.dateOfBirth u)
             (field_strip_lower (UD.lastName u))
             (field_strip_lower (UD.firstName u))
             (field_strip_lower (UD.city u))
             (field_coded US_STATE_CODES (UD.state u))
             (field_strip_lower (UD.zip u))
             (field_coded COUNTRY_CODES (UD.country u))
             (UD.client_ip_address u) (UD.client_user_agent u)
             (UD.fbc u) (UD.fbp u) (UD.subscriptionID u) (UD.leadID u)
             (UD.fbLoginID u) (UD.anonId u) (UD.madId u)
             (UD.partner_id u) (UD.partner_name u) |}.
Proof.
  destruct payload as [u]. destruct u.
  unfold normalize_user_data. cbv zeta. cbn [user_data].
  rewrite step_email_field; cbn.
  rewrite step_phone_field; cbn.
  rewrite step_gender_field; cbn.
  rewrite step_lastName_field; cbn.
  rewrite step_firstName_field; cbn.
  rewrite step_city_field; cbn.
  rewrite step_state_field; cbn.
  rewrite step_zip_field; cbn.
  rewrite step_country_field; cbn.
  rewrite step_externalId_field; cbn.
  reflexivity.
Qed.

(** ** Idempotence of the field rewrites *)

Lemma field_strip_lower_idem (v : option string) :
  field_strip_lower (field_strip_lower v) = field_strip_lower v.
Proof.
  destruct v as [s|]; [|reflexivity]. simpl.
  destruct (truthy s) eqn:E; simpl; [|rewrite E; reflexivity].
  rewrite strip_lower_idem. destruct (truthy (strip_lower s)); reflexivity.
Qed.

Lemma field_phone_idem (v : option string) :
  field_phone (field_phone v) = field_phone v.
Proof.
  destruct v as [s|]; [|reflexivity]. simpl.
  destruct (truthy s && negb (isHashedInformation s)) eqn:E; simpl;
    [|rewrite E; reflexivity].
  rewrite replace_all_idem. case_match; reflexivity.
Qed.

Lemma field_gender_idem (v : option string) :
  field_gender (field_gender v) = field_gender v.
Proof.
  destruct v as [s|]; [|reflexivity]. simpl.
  destruct (truthy s) eqn:E; simpl; [|rewrite E; reflexivity].
  rewrite (clean_strip_lower (gender_switch (strip_lower s)))
    by apply gender_switch_clean, strip_lower_clean.
  rewrite gender_switch_idem. case_match; reflexivity.
Qed.

Lemma field_coded_idem (table : gmap string string) (v : option string) :
  canonical_table table ->
  field_coded table (field_coded table v) = field_coded table v.
Proof.
  intros Htable. destruct v as [s|]; [|reflexivity]. simpl.
  destruct (truthy s) eqn:E; simpl; [|rewrite E; reflexivity].
  destruct (table !! strip_lower s) as [c|] eqn:Hk; simpl.
  - destruct (Htable _ _ Hk) as [Hclean Hfix].
    rewrite (clean_strip_lower c Hclean).
    destruct (truthy c); [|reflexivity].
    destruct Hfix as [-> | ->]; reflexivity.
  - rewrite strip_lower_idem, Hk. case_match; reflexivity.
Qed.

Lemma field_externalId_idem (v : option StringOrArray) :
  field_externalId (field_externalId v) = field_externalId v.
Proof.
  destruct v as [[s|l]|]; [| |reflexivity]; simpl.
  - destruct (truthy s) eqn:E; simpl; [|rewrite E; reflexivity].
    rewrite strip_lower_idem. reflexivity.
  - destruct l as [|el l]; [reflexivity|]. simpl.
    rewrite strip_lower_idem. do 3 f_equal.
    rewrite map_map. apply map_ext. intros a. apply strip_lower_idem.
Qed.

Lemma canonical_table_clean (table : gmap string string) :
  canonical_table table -> clean_table table.
Proof. intros H k v Hk. exact (proj1 (H k v Hk)). Qed.

(** ** The claims *)

(** C1. [normalize_user_data] is idempotent: on every payload, a second
    application leaves the record as the first one did; and
    [hash_user_data], called again on the payload it has normalized in
    place, returns the same object.  The code tables are taken to be
    canonical: the codes they map to are clean and are not mapped further. *)
Theorem normalize_user_data_idempotent (payload : UserData) :
  canonical_table US_STATE_CODES ->
  canonical_table COUNTRY_CODES ->
  normalize_user_data (normalize_user_data payload) =
    normalize_user_data payload
  /\ fst (hash_user_data (snd (hash_user_data payload))) =
       fst (hash_user_data payload).
Proof.
  intros Hs Hc.
  assert (normalize_user_data (normalize_user_data payload) =
          normalize_user_data payload) as Hidem.
  { rewrite (normalize_user_data_fields (normalize_user_data payload)).
    rewrite (normalize_user_data_fields payload). cbn.
    rewrite !field_strip_lower_idem, field_phone_idem, field_gender_idem,
      field_externalId_idem, (field_coded_idem _ _ Hs),
      (field_coded_idem _ _ Hc).
    reflexivity. }
  split; [exact Hidem|].
  unfold hash_user_data. cbn [fst snd]. rewrite Hidem. reflexivity.
Qed.

(** C2. For a payload with a non-empty phone: when the phone is not
    detected as hashed, normalization replaces it by its digits (every
    non-digit code unit removed), as for "+1 (555) 123-4567"; when it is
    detected as hashed, normalization leaves it as it is, and
    [hash_user_data] puts it under [ph] without hashing it again. *)
Theorem phone_normalization (payload : UserData) (p : string) :
  UD.phone (user_data payload) = Some p ->
  truthy p = true ->
  (isHashedInformation p = false ->
     UD.phone (user_data (normalize_user_data payload)) =
       Some (replace_all is_non_digit p)
     /\ list_ascii_of_string (replace_all is_non_digit p) =
          List.filter is_digit (list_ascii_of_string p))
  /\ (isHashedInformation p = true ->
        UD.phone (user_data (normalize_user_data payload)) = Some p
        /\ Out.ph (fst (hash_user_data payload)) = Some (Str p))
  /\ replace_all is_non_digit "+1 (555) 123-4567" = "15551234567".
Proof.
  intros Hp Ht.
  assert (UD.phone (user_data (normalize_user_data payload)) =
          field_phone (Some p)) as Hn.
  { rewrite normalize_user_data_fields. cbn. rewrite Hp. reflexivity. }
  split; [|split; [|reflexivity]].
  - intros Hh. split.
    + rewrite Hn. simpl. rewrite Ht, Hh. reflexivity.
    + rewrite replace_all_filter. apply filter_ext. intros c.
      unfold is_non_digit. apply negb_involutive.
  - intros Hh.
    assert (UD.phone (user_data (normalize_user_data payload)) = Some p)
      as Hn'.
    { rewrite Hn. simpl. rewrite Ht, Hh. reflexivity. }
    split; [exact Hn'|].
    unfold hash_user_data. cbn [fst Out.ph]. rewrite Hn'. simpl.
    rewrite truthy_length, Ht. simpl.
    unfold processHashingV2. rewrite Hh. reflexivity.
Qed.

Lemma hash_blank (v : option string) : blank v -> hash (Str <$> v) = None.
Proof. intros [-> | ->]; reflexivity. Qed.

Lemma field_strip_lower_blank (v : option string) :
  blank v -> blank (field_strip_lower v).
Proof. intros [-> | ->]; [left|right]; reflexivity. Qed.

Lemma field_phone_blank (v : option string) : blank v -> blank (field_phone v).
Proof. intros [-> | ->]; [left|right]; reflexivity. Qed.

Lemma field_gender_blank (v : option string) :
  blank v -> blank (field_gender v).
Proof. intros [-> | ->]; [left|right]; reflexivity. Qed.

Lemma field_coded_blank (table : gmap string string) (v : option string) :
  blank v -> blank (field_coded table v).
Proof. intros [-> | ->]; [left|right]; reflexivity. Qed.

(** C3. A PII field that is absent, [undefined] or the empty string (for
    [externalId]: absent, the empty string or the empty array) gives
    [undefined] under its output key: no empty string, and no digest of
    the empty string. *)
Theorem absent_fields_omitted (payload : UserData) :
  let u := user_data payload in
  let out := fst (hash_user_data payload) in
  (blank (UD.email u) -> Out.em out = None)
  /\ (blank (UD.phone u) -> Out.ph out = None)
  /\ (blank (UD.gender u) -> Out.ge out = None)
  /\ (blank (UD.dateOfBirth u) -> Out.db out = None)
  /\ (blank (UD.lastName u) -> Out.ln out = None)
  /\ (blank (UD.firstName u) -> Out.fn out = None)
  /\ (blank (UD.city u) -> Out.ct out = None)
  /\ (blank (UD.state u) -> Out.st out = None)
  /\ (blank (UD.zip u) -> Out.zp out = None)
  /\ (blank (UD.country u) -> Out.country out = None)
  /\ (isEmpty (UD.externalId u) = true -> Out.external_id out = None)
  /\ hash None = None
  /\ hash (Some (Str "")) = None
  /\ hash (Some (Arr [])) = None.
Proof.
  cbv zeta. unfold hash_user_data. cbn [fst].
  rewrite normalize_user_data_fields. cbn.
  repeat split;
    try (intros H; apply hash_blank;
         first [ exact H
               | apply field_strip_lower_blank, H
               | apply field_phone_blank, H
               | apply field_gender_blank, H
               | apply field_coded_blank, H ]).
  intros H.
  destruct (UD.externalId (user_data payload)) as [[s|l]|];
    [destruct s|destruct l|]; simpl in *; congruence.
Qed.

(** C4. For a payload with a non-empty email, firstName, lastName, city or
    zip, normalization replaces the value by the string with every
    white-space code unit (what [\s] matches) removed, wherever it stands,
    and the rest in lower case; " Test@Example.COM " becomes
    "test@example.com". *)
Theorem text_fields_stripped_and_lowered (payload : UserData) (s : string) :
  truthy s = true ->
  let u := user_data payload in
  let u' := user_data (normalize_user_data payload) in
  (UD.email u = Some s -> UD.email u' = Some (strip_lower s))
  /\ (UD.firstName u = Some s -> UD.firstName u' = Some (strip_lower s))
  /\ (UD.lastName u = Some s -> UD.lastName u' = Some (strip_lower s))
  /\ (UD.city u = Some s -> UD.city u' = Some (strip_lower s))
  /\ (UD.zip u = Some s -> UD.zip u' = Some (strip_lower s))
  /\ strip_lower s = toLowerCase (replace_all is_whitespace s)
  /\ list_ascii_of_string (replace_all is_whitespace s) =
       List.filter (fun c => negb (is_whitespace c)) (list_ascii_of_string s)
  /\ string_forallb (fun c => negb (is_whitespace c)) (strip_lower s) = true
  /\ strip_lower " Test@Example.COM " = "test@example.com".
Proof.
  intros Ht. cbv zeta. rewrite normalize_user_data_fields.
  cbn [user_data UD.email UD.firstName UD.lastName UD.city UD.zip].
  assert (field_strip_lower (Some s) = Some (strip_lower s)) as Hf
    by (simpl; rewrite Ht; reflexivity).
  split; [intros ->; exact Hf|].
  split; [intros ->; exact Hf|].
  split; [intros ->; exact Hf|].
  split; [intros ->; exact Hf|].
  split; [intros ->; exact Hf|].
  split; [reflexivity|].
  split; [apply replace_all_filter|].
  split; [apply strip_lower_no_whitespace|].
  vm_compute. reflexivity.
Qed.

(** C5. For a payload with a non-empty gender, normalization removes the
    white space and lower-cases the value, then turns "male" into "m" and
    "female" into "f" and leaves any other value as it is; " Male " gives
    "m" and "Female" gives "f". *)
Theorem gender_normalized (payload : UserData) (s : string) :
  UD.gender (user_data payload) = Some s ->
  truthy s = true ->
  let g := strip_lower s in
  let result := UD.gender (user_data (normalize_user_data payload)) in
  (g = "male" -> result = Some "m")
  /\ (g = "female" -> result = Some "f")
  /\ (g <> "male" -> g <> "female" -> result = Some g)
  /\ gender_switch (strip_lower " Male ") = "m"
  /\ gender_switch (strip_lower "Female") = "f".
Proof.
  intros Hg Ht. cbv zeta. rewrite normalize_user_data_fields. cbn.
  rewrite Hg. simpl. rewrite Ht. unfold gender_switch.
  repeat split.
  - intros ->. reflexivity.
  - intros ->. reflexivity.
  - intros Hm Hf.
    apply String.eqb_neq in Hm, Hf. rewrite Hm, Hf. reflexivity.
Qed.

(** C6. For a payload with a non-empty state (country), normalization
    removes the white space and lower-cases the value, looks the result up
    in the region-code (country-code) table, and stores the table's code on
    a hit and the lower-case text otherwise.  The lookup sees only the
    lower-cased text, so it does not depend on the case of the input; with
    "california" mapped to "ca", "California" gives "ca", and with no entry
    for "zzyzx", "Zzyzx" gives "zzyzx". *)
Theorem state_country_code_lookup (payload : UserData) (s : string) :
  truthy s = true ->
  let u := user_data payload in
  let u' := user_data (normalize_user_data payload) in
  let v := strip_lower s in
  (UD.state u = Some s ->
     (forall c, US_STATE_CODES !! v = Some c -> UD.state u' = Some c)
     /\ (US_STATE_CODES !! v = None -> UD.state u' = Some v))
  /\ (UD.country u = Some s ->
        (forall c, COUNTRY_CODES !! v = Some c -> UD.country u' = Some c)
        /\ (COUNTRY_CODES !! v = None -> UD.country u' = Some v))
  /\ strip_lower "California" = "california"
  /\ strip_lower "CALIFORNIA" = "california"
  /\ strip_lower "Zzyzx" = "zzyzx".
Proof.
  intros Ht. cbv zeta. rewrite normalize_user_data_fields. cbn.
  repeat split.
  - intros c Hc. rewrite H. simpl. rewrite Ht, Hc. reflexivity.
  - intros Hc. rewrite H. simpl. rewrite Ht, Hc. reflexivity.
  - intros c Hc. rewrite H. simpl. rewrite Ht, Hc. reflexivity.
  - intros Hc. rewrite H. simpl. rewrite Ht, Hc. reflexivity.
Qed.

(** C7. For a payload with a non-empty externalId: a single string
    becomes a one-element array, every element has its white space removed
    and is lower-cased, and [hash_user_data] gives under [external_id] an
    array of the same length whose i-th element is [processHashingV2] of
    the i-th normalized element; "User123" gives ["user123"] and an array
    of one digest.  Nothing here depends on what [processHashingV2]
    computes. *)
Theorem externalId_normalized_and_hashed (payload : UserData) :
  let u := user_data payload in
  let u' := user_data (normalize_user_data payload) in
  let out := fst (hash_user_data payload) in
  (forall s,
      UD.externalId u = Some (Str s) -> truthy s = true ->
      UD.externalId u' = Some (Arr [strip_lower s])
      /\ Out.external_id out = Some (Arr [processHashingV2 (strip_lower s)]))
  /\ (forall l : list string,
        UD.externalId u = Some (Arr l) -> l <> [] ->
        UD.externalId u' = Some (Arr (map strip_lower l))
        /\ exists digests : list string,
             Out.external_id out = Some (Arr digests)
             /\ List.length digests = List.length l
             /\ forall (i : nat) (el : string),
                  l !! i = Some el ->
                  digests !! i = Some (processHashingV2 (strip_lower el)))
  /\ strip_lower "User123" = "user123".
Proof.
  cbv zeta. unfold hash_user_data. cbn [fst Out.external_id].
  rewrite normalize_user_data_fields. cbn.
  split; [|split; [|reflexivity]].
  - intros s Hs Ht. rewrite Hs. simpl. rewrite Ht. split; reflexivity.
  - intros l Hl Hne. rewrite Hl.
    destruct l as [|el0 l]; [congruence|]. simpl. split; [reflexivity|].
    eexists. split; [reflexivity|]. split.
    + simpl. rewrite !length_map. reflexivity.
    + intros i el Hi.
      change (processHashingV2 (strip_lower el0)
                :: map processHashingV2 (map strip_lower l))
        with (map processHashingV2 (map strip_lower (el0 :: l))).
      rewrite !list_lookup_fmap, Hi. reflexivity.
Qed.

Lemma field_strip_lower_clean (v : option string) (s : string) :
  v = Some s -> truthy s = true ->
  exists s', field_strip_lower v = Some s' /\ is_clean s' = true.
Proof.
  intros -> Ht. simpl. rewrite Ht. eexists. split; [reflexivity|].
  apply strip_lower_clean.
Qed.

Lemma field_gender_clean (v : option string) (s : string) :
  v = Some s -> truthy s = true ->
  exists s', field_gender v = Some s' /\ is_clean s' = true.
Proof.
  intros -> Ht. simpl. rewrite Ht. eexists. split; [reflexivity|].
  apply gender_switch_clean, strip_lower_clean.
Qed.

Lemma field_coded_clean (table : gmap string string) (v : option string)
    (s : string) :
  clean_table table -> v = Some s -> truthy s = true ->
  exists s', field_coded table v = Some s' /\ is_clean s' = true.
Proof.
  intros Htable -> Ht. simpl. rewrite Ht.
  destruct (table !! strip_lower s) as [c|] eqn:Hk;
    eexists; (split; [reflexivity|]).
  - exact (Htable _ _ Hk).
  - apply strip_lower_clean.
Qed.

(** C8. After [normalize_user_data], every field it has processed (a
    non-empty email, gender, firstName, lastName, city, state, zip or
    country, every element of a non-empty externalId, and a non-empty
    phone) holds no upper-case and no white-space code unit; the one
    exception is a phone detected as hashed, which is left as it was.  The
    codes of the two tables are taken to be clean. *)
Theorem normalized_fields_clean (payload : UserData) :
  clean_table US_STATE_CODES ->
  clean_table COUNTRY_CODES ->
  let u := user_data payload in
  let u' := user_data (normalize_user_data payload) in
  (forall get : UD.t -> option string,
      In get [UD.email; UD.gender; UD.firstName; UD.lastName; UD.city;
              UD.state; UD.zip; UD.country] ->
      forall s, get u = Some s -> truthy s = true ->
      exists s', get u' = Some s' /\ is_clean s' = true)
  /\ (forall s, UD.phone u = Some s -> truthy s = true ->
        exists s', UD.phone u' = Some s'
          /\ (isHashedInformation s = false -> is_clean s' = true)
          /\ (isHashedInformation s = true -> s' = s))
  /\ (isEmpty (UD.externalId u) = false ->
        exists l, UD.externalId u' = Some (Arr l)
          /\ Forall (fun el => is_clean el = true) l).
Proof.
  intros Hs Hc. cbv zeta. rewrite normalize_user_data_fields.
  cbn [user_data]. split; [|split].
  - intros get Hget s Hv Ht. simpl in Hget.
    destruct Hget as [<-|[<-|[<-|[<-|[<-|[<-|[<-|[<-|[]]]]]]]]];
      cbn [UD.email UD.gender UD.firstName UD.lastName UD.city UD.state
           UD.zip UD.country];
      eauto using field_strip_lower_clean, field_gender_clean,
        field_coded_clean.
  - intros s Hv Ht. cbn [UD.phone]. rewrite Hv. simpl. rewrite Ht.
    destruct (isHashedInformation s); simpl; eexists;
      (split; [reflexivity|]); split; intros; try congruence.
    apply digits_clean.
  - intros He. cbn [UD.externalId].
    destruct (UD.externalId (user_data payload)) as [[s|l]|];
      simpl in He; try discriminate.
    + destruct s; [discriminate|]. simpl. eexists. split; [reflexivity|].
      constructor; [apply strip_lower_clean|constructor].
    + destruct l as [|el l]; [discriminate|]. simpl.
      eexists. split; [reflexivity|].
      change (strip_lower el :: map strip_lower l)
        with (map strip_lower (el :: l)).
      apply Forall_forall. intros x Hx.
      apply list_elem_of_In, in_map_iff in Hx as [y [<- _]].
      apply strip_lower_clean.
Qed.

(** C9. [hash_user_data] copies every non-PII field to the output as it
    is, under its output key (a renaming and nothing else), and
    [normalize_user_data] leaves dateOfBirth as supplied. *)
Theorem non_pii_fields_pass_through (payload : UserData) :
  let u := user_data payload in
  let out := fst (hash_user_data payload) in
  Out.client_ip_address out = UD.client_ip_address u
  /\ Out.client_user_agent out = UD.client_user_agent u
  /\ Out.fbc out = UD.fbc u
  /\ Out.fbp out = UD.fbp u
  /\ Out.subscription_id out = UD.subscriptionID u
  /\ Out.lead_id out = UD.leadID u
  /\ Out.anon_id out = UD.anonId u
  /\ Out.madid out = UD.madId u
  /\ Out.fb_login_id out = UD.fbLoginID u
  /\ Out.partner_id out = UD.partner_id u
  /\ Out.partner_name out = UD.partner_name u
  /\ UD.dateOfBirth (user_data (normalize_user_data payload)) =
       UD.dateOfBirth u.
Proof.
  cbv zeta. unfold hash_user_data. cbn [fst].
  rewrite normalize_user_data_fields. cbn. repeat split.
Qed.

(** ** The hashed-value detection *)

Lemma regexp_test_unfold (n : nat) (s : string) :
  regexp_test n s =
  match_hex_here n s ||
  match s with
  | EmptyString => false
  | String _ t => regexp_test n t
  end.
Proof. destruct s; reflexivity. Qed.

Lemma match_hex_here_prefix (n : nat) (s : string) :
  match_hex_here n s = true <->
  exists run post,
    s = run +:+ post /\ String.length run = n /\
    string_forallb is_hex run = true.
Proof.
  revert s. induction n as [|n IH]; intros s; simpl.
  - split; [intros _|reflexivity].
    exists EmptyString, s. repeat split.
  - destruct s as [|c t].
    + split; [discriminate|].
      intros (run & post & Hs & Hlen & _).
      destruct run; simpl in *; discriminate.
    + rewrite andb_true_iff, IH. split.
      * intros (Hc & run & post & -> & Hlen & Hall).
        exists (String c run), post. simpl. rewrite Hc, Hall, Hlen.
        repeat split.
      * intros (run & post & Hs & Hlen & Hall).
        destruct run as [|c' run]; simpl in *; [discriminate|].
        injection Hs as -> ->. injection Hlen as Hlen.
        apply andb_prop in Hall as [Hc Hall].
        split; [exact Hc|]. exists run, post. repeat split; assumption.
Qed.

Lemma regexp_test_contains (n : nat) (s : string) :
  regexp_test n s = true <-> contains_hex_run n s.
Proof.
  unfold contains_hex_run. split.
  - induction s as [|c t IH]; rewrite regexp_test_unfold, orb_true_iff.
    + intros [H|H]; [|discriminate].
      apply match_hex_here_prefix in H as (run & post & Hs & Hlen & Hall).
      exists EmptyString, run, post. repeat split; assumption.
    + intros [H|H].
      * apply match_hex_here_prefix in H as (run & post & Hs & Hlen & Hall).
        exists EmptyString, run, post. repeat split; assumption.
      * destruct (IH H) as (pre & run & post & -> & Hlen & Hall).
        exists (String c pre), run, post. repeat split; assumption.
  - intros (pre & run & post & -> & Hlen & Hall).
    induction pre as [|c pre IH]; rewrite regexp_test_unfold, orb_true_iff.
    + left. apply match_hex_here_prefix. exists run, post.
      repeat split; assumption.
    + right. exact IH.
Qed.

Lemma match_hex_here_all (n : nat) (s : string) :
  (n <= String.length s)%nat -> string_forallb is_hex s = true ->
  match_hex_here n s = true.
Proof.
  revert s. induction n as [|n IH]; intros s Hlen Hall; [reflexivity|].
  destruct s as [|c t]; simpl in *; [lia|].
  apply andb_prop in Hall as [Hc Ht]. rewrite Hc. simpl.
  apply IH; [lia|exact Ht].
Qed.

(** C10. [isHashedInformation] answers true exactly for the strings that
    hold 64 consecutive hexadecimal characters (0-9, a-f, A-F) somewhere:
    the pattern is not anchored, so every all-hexadecimal string of 64
    characters or more, such as one of 65, and a text around such a run
    are taken as hashed, and 63 hexadecimal characters are not. *)
Theorem isHashedInformation_unanchored :
  (forall s, isHashedInformation s = true <-> contains_hex_run 64 s)
  /\ (forall c,
        is_hex c =
        existsb (Ascii.eqb c)
                (list_ascii_of_string "0123456789abcdefABCDEF"))
  /\ (forall s,
        (64 <= String.length s)%nat -> string_forallb is_hex s = true ->
        isHashedInformation s = true)
  /\ isHashedInformation
       "EA3D01F99E303D2338CFB4E71F182441eb57c9a3cb129c40bcae9f5d641a73750"
     = true
  /\ isHashedInformation
       "tel: ea3d01f99e303d2338cfb4e71f182441eb57c9a3cb129c40bcae9f5d641a7375 (home)"
     = true
  /\ isHashedInformation
       "ea3d01f99e303d2338cfb4e71f182441eb57c9a3cb129c40bcae9f5d641a737"
     = false.
Proof.
  split; [|split; [|split; [|repeat split]]].
  - intros s. apply regexp_test_contains.
  - apply hex_chars.
  - intros s Hlen Hall. unfold isHashedInformation.
    rewrite regexp_test_unfold, (match_hex_here_all 64 s Hlen Hall).
    reflexivity.
Qed.

(** * Further properties of the normalizer and the hasher *)

Ltac by_fields :=
  rewrite ?normalize_user_data_fields;
  cbn [user_data UD.externalId UD.email UD.phone UD.gender UD.dateOfBirth
       UD.lastName UD.firstName UD.city UD.state UD.zip UD.country
       UD.client_ip_address UD.client_user_agent UD.fbc UD.fbp
       UD.subscriptionID UD.leadID UD.fbLoginID UD.anonId UD.madId
       UD.partner_id UD.partner_name].

(** ** More on code units and strings *)

Lemma lower_char_ws (c : ascii) :
  is_whitespace (lower_char c) = is_whitespace c.
Proof. each_code_unit c. Qed.

Lemma lower_char_hex (c : ascii) : is_hex (lower_char c) = is_hex c.
Proof. each_code_unit c. Qed.

Lemma lower_char_idem (c : ascii) : lower_char (lower_char c) = lower_char c.
Proof. each_code_unit c. Qed.

Lemma hex_not_ws (c : ascii) : is_hex c = true -> is_whitespace c = false.
Proof. each_code_unit c. Qed.

Lemma replace_all_app (cls : ascii -> bool) (a b : string) :
  replace_all cls (a +:+ b) = replace_all cls a +:+ replace_all cls b.
Proof.
  induction a as [|c a IH]; simpl; [reflexivity|].
  destruct (cls c); simpl; rewrite IH; reflexivity.
Qed.

Lemma toLowerCase_app (a b : string) :
  toLowerCase (a +:+ b) = toLowerCase a +:+ toLowerCase b.
Proof. induction a as [|c a IH]; simpl; [reflexivity|]. rewrite IH. reflexivity. Qed.

Lemma strip_lower_app (a b : string) :
  strip_lower (a +:+ b) = strip_lower a +:+ strip_lower b.
Proof. unfold strip_lower. rewrite replace_all_app, toLowerCase_app. reflexivity. Qed.

Lemma strip_lower_cons (c : ascii) (s : string) :
  strip_lower (String c s) =
  if is_whitespace c then strip_lower s
  else String (lower_char c) (strip_lower s).
Proof. unfold strip_lower. simpl. destruct (is_whitespace c); reflexivity. Qed.

Lemma strip_lower_empty (s : string) :
  strip_lower s = "" <-> string_forallb is_whitespace s = true.
Proof.
  induction s as [|c t IH]; [split; reflexivity|].
  rewrite strip_lower_cons. simpl.
  destruct (is_whitespace c); simpl; [exact IH|].
  split; discriminate.
Qed.

Lemma truthy_empty (s : string) : truthy s = false <-> s = "".
Proof. destruct s; simpl; split; congruence. Qed.

Lemma same_text_strip_lower (s1 s2 : string) :
  same_text s1 s2 -> strip_lower s1 = strip_lower s2.
Proof.
  induction 1 as [|c1 c2 s1 s2 Hc _ IH|w s1 s2 Hw _ IH|w s1 s2 Hw _ IH];
    rewrite ?strip_lower_cons.
  - reflexivity.
  - rewrite <- (lower_char_ws c1), <- (lower_char_ws c2), Hc, IH.
    reflexivity.
  - rewrite Hw. exact IH.
  - rewrite Hw. exact IH.
Qed.

(** The rewrite of a text field depends on the text only through
    [strip_lower]: the guard on the empty string changes nothing. *)
Lemma field_strip_lower_some (s : string) :
  field_strip_lower (Some s) = Some (strip_lower s).
Proof. destruct s; reflexivity. Qed.

Lemma field_gender_some (s : string) :
  field_gender (Some s) = Some (gender_switch (strip_lower s)).
Proof. destruct s; reflexivity. Qed.

Lemma hash_str_none (v : option string) :
  hash (Str <$> v) = None <-> forall s, v = Some s -> s = "".
Proof.
  destruct v as [[|c x]|]; simpl; split; intros H; try reflexivity;
    try discriminate.
  - intros s [= <-]. reflexivity.
  - discriminate (H _ eq_refl).
Qed.

(** ** Fields are handled one by one *)

(** X1. Each normalized field is a function of the same field of the input
    alone: two payloads that agree on a field agree on it after
    normalization, whatever their other fields hold. *)
Theorem normalize_user_data_field_independence (p q : UserData) :
  let u := user_data p in
  let v := user_data q in
  let u' := user_data (normalize_user_data p) in
  let v' := user_data (normalize_user_data q) in
  (UD.email u = UD.email v -> UD.email u' = UD.email v')
  /\ (UD.phone u = UD.phone v -> UD.phone u' = UD.phone v')
  /\ (UD.gender u = UD.gender v -> UD.gender u' = UD.gender v')
  /\ (UD.lastName u = UD.lastName v -> UD.lastName u' = UD.lastName v')
  /\ (UD.firstName u = UD.firstName v -> UD.firstName u' = UD.firstName v')
  /\ (UD.city u = UD.city v -> UD.city u' = UD.city v')
  /\ (UD.state u = UD.state v -> UD.state u' = UD.state v')
  /\ (UD.zip u = UD.zip v -> UD.zip u' = UD.zip v')
  /\ (UD.country u = UD.country v -> UD.country u' = UD.country v')
  /\ (UD.externalId u = UD.externalId v ->
      UD.externalId u' = UD.externalId v').
Proof.
  cbv zeta. by_fields. repeat split; intros ->; reflexivity.
Qed.

Lemma field_strip_lower_none (v : option string) :
  field_strip_lower v = None <-> v = None.
Proof. destruct v as [s|]; [destruct s|]; simpl; split; congruence. Qed.

Lemma field_phone_none (v : option string) : field_phone v = None <-> v = None.
Proof.
  destruct v as [s|]; simpl; [|split; congruence].
  destruct (truthy s && negb (isHashedInformation s)); split; congruence.
Qed.

Lemma field_gender_none (v : option string) :
  field_gender v = None <-> v = None.
Proof. destruct v as [s|]; [destruct s|]; simpl; split; congruence. Qed.

Lemma field_coded_none (table : gmap string string) (v : option string) :
  field_coded table v = None <-> v = None.
Proof.
  destruct v as [s|]; simpl; [|split; congruence].
  destruct (truthy s); [destruct (table !! strip_lower s)|]; split; congruence.
Qed.

Lemma field_externalId_none (v : option StringOrArray) :
  field_externalId v = None <-> v = None.
Proof.
  destruct v as [[s|l]|]; [destruct s|destruct l|]; simpl; split; congruence.
Qed.

(** X2. Normalization neither drops a field nor creates one: each of the
    ten fields it may assign is [undefined] afterwards exactly when it was
    before, for any code tables. *)
Theorem normalize_user_data_keeps_presence (payload : UserData) :
  let u := user_data payload in
  let u' := user_data (normalize_user_data payload) in
  (UD.email u' = None <-> UD.email u = None)
  /\ (UD.phone u' = None <-> UD.phone u = None)
  /\ (UD.gender u' = None <-> UD.gender u = None)
  /\ (UD.lastName u' = None <-> UD.lastName u = None)
  /\ (UD.firstName u' = None <-> UD.firstName u = None)
  /\ (UD.city u' = None <-> UD.city u = None)
  /\ (UD.state u' = None <-> UD.state u = None)
  /\ (UD.zip u' = None <-> UD.zip u = None)
  /\ (UD.country u' = None <-> UD.country u = None)
  /\ (UD.externalId u' = None <-> UD.externalId u = None).
Proof.
  cbv zeta. by_fields.
  auto 12 using field_strip_lower_none, field_phone_none, field_gender_none,
    field_coded_none, field_externalId_none.
Qed.

(** ** When an output key is present *)

Lemma hash_some_str (x : string) : hash (Some (Str x)) = None <-> x = "".
Proof. destruct x; simpl; split; congruence. Qed.

Lemma replace_all_empty (cls : ascii -> bool) (s : string) :
  replace_all cls s = "" <-> string_forallb cls s = true.
Proof.
  induction s as [|c t IH]; simpl; [split; reflexivity|].
  destruct (cls c); simpl; [exact IH|]. split; discriminate.
Qed.

Lemma gender_switch_empty (g : string) : gender_switch g = "" <-> g = "".
Proof.
  unfold gender_switch.
  destruct (String.eqb g "male") eqn:Em;
    [apply String.eqb_eq in Em; subst; split; discriminate|].
  destruct (String.eqb g "female") eqn:Ef;
    [apply String.eqb_eq in Ef; subst; split; discriminate|].
  reflexivity.
Qed.

Lemma text_key_none (v : option string) :
  hash (Str <$> field_strip_lower v) = None <->
  forall s, v = Some s -> string_forallb is_whitespace s = true.
Proof.
  destruct v as [s|]; [|split; [intros _ s; discriminate|reflexivity]].
  rewrite field_strip_lower_some. cbn [fmap option_fmap option_map].
  rewrite hash_some_str, strip_lower_empty. split.
  - intros H x [= <-]. exact H.
  - intros H. exact (H s eq_refl).
Qed.

Lemma gender_key_none (v : option string) :
  hash (Str <$> field_gender v) = None <->
  forall s, v = Some s -> string_forallb is_whitespace s = true.
Proof.
  destruct v as [s|]; [|split; [intros _ s; discriminate|reflexivity]].
  rewrite field_gender_some. cbn [fmap option_fmap option_map].
  rewrite hash_some_str, gender_switch_empty, strip_lower_empty. split.
  - intros H x [= <-]. exact H.
  - intros H. exact (H s eq_refl).
Qed.

(** X3. The output keys em, ge, ln, fn, ct and zp are [undefined] exactly
    when the field is absent or holds nothing but white space (the empty
    string included): a white-space-only value is dropped, not hashed.  The
    key db, whose field is not normalized, is [undefined] only when
    dateOfBirth is absent or empty. *)
Theorem text_output_keys_presence (payload : UserData) :
  let u := user_data payload in
  let out := fst (hash_user_data payload) in
  let only_space (v : option string) :=
    forall s, v = Some s -> string_forallb is_whitespace s = true in
  (Out.em out = None <-> only_space (UD.email u))
  /\ (Out.ge out = None <-> only_space (UD.gender u))
  /\ (Out.ln out = None <-> only_space (UD.lastName u))
  /\ (Out.fn out = None <-> only_space (UD.firstName u))
  /\ (Out.ct out = None <-> only_space (UD.city u))
  /\ (Out.zp out = None <-> only_space (UD.zip u))
  /\ (Out.db out = None <-> blank (UD.dateOfBirth u)).
Proof.
  cbv zeta. unfold hash_user_data.
  cbn [fst Out.em Out.ge Out.ln Out.fn Out.ct Out.zp Out.db]. by_fields.
  repeat split; try apply text_key_none; try apply gender_key_none.
  - intros H. destruct (UD.dateOfBirth (user_data payload)) as [[|c d]|];
      [right; reflexivity|discriminate|left; reflexivity].
  - intros [-> | ->]; reflexivity.
Qed.

(** ** The phone *)

Lemma match_hex_here_short (n : nat) (s : string) :
  (String.length s < n)%nat -> match_hex_here n s = false.
Proof.
  revert s. induction n as [|n IH]; intros s Hlen; [lia|].
  destruct s as [|c t]; simpl in *; [reflexivity|].
  rewrite IH by lia. apply andb_false_r.
Qed.

Lemma regexp_test_short (n : nat) (s : string) :
  (String.length s < n)%nat -> regexp_test n s = false.
Proof.
  induction s as [|c t IH]; intros Hlen; rewrite regexp_test_unfold;
    rewrite match_hex_here_short by exact Hlen; simpl in *;
    [reflexivity|].
  apply IH. lia.
Qed.

Lemma hashed_truthy (s : string) :
  isHashedInformation s = true -> truthy s = true.
Proof. destruct s; [discriminate|reflexivity]. Qed.

Lemma digits_only (s : string) :
  string_forallb is_digit (replace_all is_non_digit s) = true.
Proof.
  induction s as [|c t IH]; simpl; [reflexivity|].
  unfold is_non_digit at 1. destruct (is_digit c) eqn:E; simpl; [|exact IH].
  rewrite E, IH. reflexivity.
Qed.

(** X4. The output key ph is [undefined] exactly when the phone is absent,
    or is not detected as hashed and holds no digit: a phone such as "n/a"
    is dropped, and a phone detected as hashed always gives a value. *)
Theorem phone_output_key_presence (payload : UserData) :
  Out.ph (fst (hash_user_data payload)) = None <->
  forall s, UD.phone (user_data payload) = Some s ->
            isHashedInformation s = false
            /\ string_forallb is_non_digit s = true.
Proof.
  unfold hash_user_data. cbn [fst Out.ph]. by_fields.
  destruct (UD.phone (user_data payload)) as [s|];
    [|split; [intros _ s; discriminate|reflexivity]].
  simpl field_phone.
  destruct (isHashedInformation s) eqn:Hh.
  - rewrite (hashed_truthy s Hh).
    cbn [negb andb fmap option_fmap option_map]. rewrite hash_some_str. split.
    + intros ->. discriminate.
    + intros H. destruct (H s eq_refl) as [? _]. congruence.
  - rewrite andb_true_r. destruct (truthy s) eqn:Ht;
      cbn [fmap option_fmap option_map]; rewrite hash_some_str.
    + rewrite replace_all_empty. split.
      * intros H x [= <-]. split; [exact Hh|exact H].
      * intros H. exact (proj2 (H s eq_refl)).
    + apply truthy_empty in Ht. subst s. split.
      * intros _ x [= <-]. split; reflexivity.
      * reflexivity.
Qed.

(** X5. A string of fewer than 64 code units is never taken as hashed, so
    a phone shorter than that always has its non-digits removed and is left
    holding digits only. *)
Theorem short_phone_is_digit_stripped (payload : UserData) (s : string) :
  UD.phone (user_data payload) = Some s ->
  (String.length s < 64)%nat ->
  isHashedInformation s = false
  /\ UD.phone (user_data (normalize_user_data payload)) =
       Some (replace_all is_non_digit s)
  /\ string_forallb is_digit (replace_all is_non_digit s) = true.
Proof.
  intros Hp Hlen.
  assert (isHashedInformation s = false) as Hh
    by (apply regexp_test_short; exact Hlen).
  split; [exact Hh|]. split; [|apply digits_only].
  by_fields. rewrite Hp. simpl. rewrite Hh, andb_true_r.
  destruct s; reflexivity.
Qed.

(** X6. After normalization a phone holds digits only, unless it is the
    input phone itself, left as it was because it is detected as hashed. *)
Theorem normalized_phone_shape (payload : UserData) (s' : string) :
  UD.phone (user_data (normalize_user_data payload)) = Some s' ->
  string_forallb is_digit s' = true
  \/ (isHashedInformation s' = true
      /\ UD.phone (user_data payload) = Some s').
Proof.
  by_fields. destruct (UD.phone (user_data payload)) as [s|];
    [|discriminate]. simpl.
  destruct (isHashedInformation s) eqn:Hh.
  - rewrite andb_false_r. intros [= <-]. right. split; [exact Hh|reflexivity].
  - rewrite andb_true_r. destruct (truthy s) eqn:Ht; intros [= <-]; left.
    + apply digits_only.
    + apply truthy_empty in Ht. subst s. reflexivity.
Qed.

(** ** Detection and normalization *)

Lemma match_hex_here_lower (n : nat) (s : string) :
  match_hex_here n (toLowerCase s) = match_hex_here n s.
Proof.
  revert s. induction n as [|n IH]; intros s; [reflexivity|].
  destruct s as [|c t]; simpl; [reflexivity|].
  rewrite lower_char_hex, IH. reflexivity.
Qed.

Lemma regexp_test_lower (n : nat) (s : string) :
  regexp_test n (toLowerCase s) = regexp_test n s.
Proof.
  induction s as [|c t IH]; [reflexivity|].
  rewrite (regexp_test_unfold n (String c t)), <- IH, <- match_hex_here_lower.
  reflexivity.
Qed.

Lemma hex_run_no_whitespace (run : string) :
  string_forallb is_hex run = true -> replace_all is_whitespace run = run.
Proof.
  induction run as [|c t IH]; simpl; [reflexivity|].
  intros H. apply andb_prop in H as [Hc Ht].
  rewrite (hex_not_ws c Hc), (IH Ht). reflexivity.
Qed.

Lemma append_assoc (a b c : string) : (a +:+ b) +:+ c = a +:+ (b +:+ c).
Proof.
  induction a as [|x a IH]; [reflexivity|].
  change (String x ((a +:+ b) +:+ c) = String x (a +:+ b +:+ c)).
  rewrite IH. reflexivity.
Qed.

Lemma regexp_test_app (n : nat) (pre s post : string) :
  regexp_test n s = true -> regexp_test n (pre +:+ s +:+ post) = true.
Proof.
  rewrite !regexp_test_contains.
  intros (a & run & b & -> & Hlen & Hall).
  exists (pre +:+ a), run, (b +:+ post). split; [|split; assumption].
  rewrite !append_assoc. reflexivity.
Qed.

Lemma strip_lower_keeps_detection (s : string) :
  isHashedInformation s = true -> isHashedInformation (strip_lower s) = true.
Proof.
  unfold isHashedInformation. intros H.
  apply regexp_test_contains in H as (pre & run & post & -> & Hlen & Hall).
  rewrite !strip_lower_app. apply regexp_test_app.
  unfold strip_lower. rewrite (hex_run_no_whitespace run Hall).
  rewrite regexp_test_lower, regexp_test_unfold.
  rewrite match_hex_here_all; [reflexivity|lia|exact Hall].
Qed.

Lemma gender_switch_hashed (g : string) :
  isHashedInformation g = true -> gender_switch g = g.
Proof.
  intros H. unfold gender_switch.
  destruct (String.eqb g "male") eqn:Em;
    [apply String.eqb_eq in Em; subst; discriminate|].
  destruct (String.eqb g "female") eqn:Ef;
    [apply String.eqb_eq in Ef; subst; discriminate|].
  reflexivity.
Qed.

(** X7. Normalization does not undo a detection.  Lower-casing leaves the
    answer of [isHashedInformation] as it is, and removing white space keeps
    every run of 64 hexadecimal characters; so an email, gender, name, city,
    zip or externalId element that is detected as hashed is still detected
    as hashed once normalized. *)
Theorem detection_survives_normalization (payload : UserData) (s : string) :
  isHashedInformation (toLowerCase s) = isHashedInformation s
  /\ (isHashedInformation s = true ->
      let u := user_data payload in
      let u' := user_data (normalize_user_data payload) in
      isHashedInformation (strip_lower s) = true
      /\ (forall get : UD.t -> option string,
            In get [UD.email; UD.gender; UD.lastName; UD.firstName;
                    UD.city; UD.zip] ->
            get u = Some s -> get u' = Some (strip_lower s))
      /\ (forall l, UD.externalId u = Some (Arr l) -> In s l ->
            exists l', UD.externalId u' = Some (Arr l')
                       /\ In (strip_lower s) l')).
Proof.
  split; [apply regexp_test_lower|].
  intros Hh. cbv zeta. split; [exact (strip_lower_keeps_detection s Hh)|].
  by_fields. split.
  - intros get Hget Hs. simpl in Hget.
    destruct Hget as [<-|[<-|[<-|[<-|[<-|[<-|[]]]]]]];
      cbn [UD.email UD.gender UD.lastName UD.firstName UD.city UD.zip];
      rewrite Hs; rewrite ?field_strip_lower_some; try reflexivity.
    rewrite field_gender_some.
    rewrite (gender_switch_hashed _ (strip_lower_keeps_detection s Hh)).
    reflexivity.
  - intros l Hl Hin. rewrite Hl. destruct l as [|el l]; [destruct Hin|].
    simpl field_externalId. eexists. split; [reflexivity|].
    change (strip_lower el :: map strip_lower l)
      with (map strip_lower (el :: l)).
    apply in_map. exact Hin.
Qed.

(** ** The legacy single externalId *)

Lemma normalize_set_externalId (u : UD.t) (v w : option StringOrArray) :
  field_externalId v = field_externalId w ->
  normalize_user_data {| user_data := UD.set_externalId v u |} =
  normalize_user_data {| user_data := UD.set_externalId w u |}.
Proof.
  intros H. rewrite !normalize_user_data_fields.
  cbv zeta. unfold UD.set_externalId. by_fields. rewrite H. reflexivity.
Qed.

(** X8. A non-empty externalId given as a single string is handled as the
    one-element array holding it: both payloads are normalized to the same
    record and give the same output.  The empty string is the exception:
    as a string it gives no external_id, inside an array it is kept as an
    element, and external_id is a one-element array. *)
Theorem externalId_string_as_array (u : UD.t) :
  (forall s, truthy s = true ->
     hash_user_data {| user_data := UD.set_externalId (Some (Str s)) u |} =
     hash_user_data {| user_data := UD.set_externalId (Some (Arr [s])) u |})
  /\ Out.external_id
       (fst (hash_user_data
               {| user_data := UD.set_externalId (Some (Str "")) u |})) = None
  /\ exists d,
       Out.external_id
         (fst (hash_user_data
                 {| user_data := UD.set_externalId (Some (Arr [""])) u |})) =
       Some (Arr [d]).
Proof.
  split; [|split].
  - intros s Ht. unfold hash_user_data.
    rewrite (normalize_set_externalId u (Some (Str s)) (Some (Arr [s])));
      [reflexivity|].
    simpl. rewrite Ht. reflexivity.
  - unfold hash_user_data. cbn [fst Out.external_id].
    rewrite normalize_user_data_fields. reflexivity.
  - unfold hash_user_data. cbn [fst Out.external_id].
    rewrite normalize_user_data_fields. eexists. reflexivity.
Qed.

(** X9. The output key external_id is [undefined] exactly when externalId
    is absent, the empty string or the empty array; otherwise it is a
    non-empty array: never a bare string, never an empty array. *)
Theorem external_id_shape (payload : UserData) :
  let out := fst (hash_user_data payload) in
  (Out.external_id out = None <->
   isEmpty (UD.externalId (user_data payload)) = true)
  /\ (forall s, Out.external_id out <> Some (Str s))
  /\ Out.external_id out <> Some (Arr []).
Proof.
  cbv zeta. unfold hash_user_data. cbn [fst Out.external_id]. by_fields.
  destruct (UD.externalId (user_data payload)) as [[s|l]|];
    [destruct s|destruct l|]; simpl;
    repeat split; intros; congruence.
Qed.

(** ** Values that differ in case and white space only *)

Lemma same_text_spaces (s : string) :
  string_forallb is_whitespace s = true -> same_text "" s.
Proof.
  induction s as [|c t IH]; simpl; [intros _; constructor|].
  intros H. apply andb_prop in H as [Hc Ht].
  apply same_text_space_r; [exact Hc|exact (IH Ht)].
Qed.

Lemma strip_lower_same_text (s1 s2 : string) :
  strip_lower s1 = strip_lower s2 -> same_text s1 s2.
Proof.
  revert s2. induction s1 as [|c1 t1 IH1]; intros s2.
  - intros H. apply same_text_spaces, strip_lower_empty. symmetry. exact H.
  - rewrite strip_lower_cons. destruct (is_whitespace c1) eqn:E1.
    + intros H. apply same_text_space_l; [exact E1|exact (IH1 _ H)].
    + induction s2 as [|c2 t2 IH2]; [discriminate|].
      rewrite strip_lower_cons. destruct (is_whitespace c2) eqn:E2.
      * intros H. apply same_text_space_r; [exact E2|exact (IH2 H)].
      * intros [= Hc Ht]. apply same_text_char; [exact Hc|exact (IH1 _ Ht)].
Qed.

Lemma normalize_same_text (u : UD.t) (s1 s2 : string)
    (set : option string -> UD.t -> UD.t) :
  same_text s1 s2 ->
  In set [UD.set_email; UD.set_gender; UD.set_lastName; UD.set_firstName;
          UD.set_city; UD.set_zip] ->
  normalize_user_data {| user_data := set (Some s1) u |} =
  normalize_user_data {| user_data := set (Some s2) u |}.
Proof.
  intros H Hin. apply same_text_strip_lower in H.
  rewrite !normalize_user_data_fields. cbv zeta. simpl in Hin.
  destruct Hin as [<-|[<-|[<-|[<-|[<-|[<-|[]]]]]]];
    unfold UD.set_email, UD.set_gender, UD.set_lastName, UD.set_firstName,
      UD.set_city, UD.set_zip;
    by_fields; rewrite ?field_strip_lower_some, ?field_gender_some, H;
    reflexivity.
Qed.

(** X10. Case and white space do not count.  When two values of email,
    gender, lastName, firstName, city or zip read the same once case and
    white space are ignored, the two payloads are normalized to the same
    record and give the same output; and two emails are normalized to the
    same value only when they read the same in that sense. *)
Theorem output_ignores_case_and_whitespace (u : UD.t) (s1 s2 : string) :
  (same_text s1 s2 ->
   forall set : option string -> UD.t -> UD.t,
     In set [UD.set_email; UD.set_gender; UD.set_lastName; UD.set_firstName;
             UD.set_city; UD.set_zip] ->
     hash_user_data {| user_data := set (Some s1) u |} =
     hash_user_data {| user_data := set (Some s2) u |})
  /\ (UD.email
        (user_data
           (normalize_user_data
              {| user_data := UD.set_email (Some s1) u |})) =
      UD.email
        (user_data
           (normalize_user_data
              {| user_data := UD.set_email (Some s2) u |})) ->
      same_text s1 s2).
Proof.
  split.
  - intros H set Hin. unfold hash_user_data.
    rewrite (normalize_same_text u s1 s2 set H Hin). reflexivity.
  - rewrite !normalize_user_data_fields. cbv zeta. unfold UD.set_email.
    by_fields. rewrite !field_strip_lower_some. intros [= H].
    exact (strip_lower_same_text s1 s2 H).
Qed.

(** ** The gender codes *)

(** X11. A normalized gender is never "male" or "female"; it is "m" exactly
    when the value reads "m" or "male" once white space is removed and case
    is dropped, and "f" exactly when it reads "f" or "female". *)
Theorem gender_codes (payload : UserData) (s : string) :
  UD.gender (user_data payload) = Some s ->
  let g := strip_lower s in
  let result := UD.gender (user_data (normalize_user_data payload)) in
  result <> Some "male"
  /\ result <> Some "female"
  /\ (result = Some "m" <-> g = "m" \/ g = "male")
  /\ (result = Some "f" <-> g = "f" \/ g = "female").
Proof.
  intros Hg. cbv zeta. by_fields. rewrite Hg, field_gender_some.
  unfold gender_switch.
  destruct (String.eqb (strip_lower s) "male") eqn:Em.
  { apply String.eqb_eq in Em. rewrite Em.
    repeat split; try discriminate; auto.
    intros [H|H]; discriminate H. }
  destruct (String.eqb (strip_lower s) "female") eqn:Ef.
  { apply String.eqb_eq in Ef. rewrite Ef.
    repeat split; try discriminate; auto.
    intros [H|H]; discriminate H. }
  apply String.eqb_neq in Em, Ef.
  repeat split; try congruence.
  - intros [= H]. left. exact H.
  - intros [->|H]; [reflexivity|contradiction].
  - intros [= H]. left. exact H.
  - intros [->|H]; [reflexivity|contradiction].
Qed.

End Engine.

(** * Concrete instances *)

Lemma sample_states_canonical : canonical_table sample_states.
Proof.
  unfold canonical_table. apply (bool_decide_unpack _). vm_compute. exact I.
Qed.

Lemma sample_countries_canonical : canonical_table sample_countries.
Proof.
  unfold canonical_table. apply (bool_decide_unpack _). vm_compute. exact I.
Qed.

Lemma normalize_user_data_idempotent_witness :
  normalize_user_data sample_states sample_countries
    (normalize_user_data sample_states sample_countries sample_payload) =
    normalize_user_data sample_states sample_countries sample_payload
  /\ fst (hash_user_data sample_states sample_countries sample_digest
            (snd (hash_user_data sample_states sample_countries sample_digest
                    sample_payload))) =
       fst (hash_user_data sample_states sample_countries sample_digest
              sample_payload).
Proof.
  exact (normalize_user_data_idempotent sample_states sample_countries
           sample_digest sample_payload
           sample_states_canonical sample_countries_canonical).
Defined.

Lemma phone_normalization_witness :
  (let payload :=
     {| user_data := UD.set_phone (Some "+1 (555) 123-4567") no_user_data |} in
   UD.phone
     (user_data (normalize_user_data sample_states sample_countries payload)) =
     Some "15551234567")
  /\ (let hashed :=
        "EA3D01F99E303D2338CFB4E71F182441eb57c9a3cb129c40bcae9f5d641a7375" in
      let payload :=
        {| user_data := UD.set_phone (Some hashed) no_user_data |} in
      UD.phone
        (user_data (normalize_user_data sample_states sample_countries payload)) =
        Some hashed
      /\ Out.ph
           (fst (hash_user_data sample_states sample_countries sample_digest
                   payload)) =
           Some (Str hashed)).
Proof.
  split; cbv zeta.
  - destruct (phone_normalization sample_states sample_countries sample_digest
                {| user_data :=
                     UD.set_phone (Some "+1 (555) 123-4567") no_user_data |}
                "+1 (555) 123-4567" eq_refl eq_refl) as [H _].
    exact (proj1 (H eq_refl)).
  - destruct (phone_normalization sample_states sample_countries sample_digest
                {| user_data :=
                     UD.set_phone
                       (Some "EA3D01F99E303D2338CFB4E71F182441eb57c9a3cb129c40bcae9f5d641a7375")
                       no_user_data |}
                "EA3D01F99E303D2338CFB4E71F182441eb57c9a3cb129c40bcae9f5d641a7375"
                eq_refl eq_refl) as [_ [H _]].
    exact (H eq_refl).
Defined.

Lemma text_fields_stripped_and_lowered_witness :
  UD.email
    (user_data
       (normalize_user_data sample_states sample_countries sample_payload)) =
    Some "test@example.com"
  /\ UD.city
       (user_data
          (normalize_user_data sample_states sample_countries sample_payload)) =
       Some "menlopark".
Proof.
  split.
  - exact (proj1 (text_fields_stripped_and_lowered sample_states
                    sample_countries sample_payload " Test@Example.COM "
                    eq_refl) eq_refl).
  - destruct (text_fields_stripped_and_lowered sample_states sample_countries
                sample_payload "Menlo Park" eq_refl) as (_ & _ & _ & H & _).
    exact (H eq_refl).
Defined.

Lemma gender_normalized_witness :
  UD.gender
    (user_data
       (normalize_user_data sample_states sample_countries
          {| user_data := UD.set_gender (Some " Male ") no_user_data |})) =
    Some "m"
  /\ UD.gender
       (user_data
          (normalize_user_data sample_states sample_countries
             {| user_data := UD.set_gender (Some "Female") no_user_data |})) =
       Some "f"
  /\ UD.gender
       (user_data
          (normalize_user_data sample_states sample_countries
             {| user_data := UD.set_gender (Some "Non Binary") no_user_data |})) =
       Some "nonbinary".
Proof.
  split; [|split].
  - exact (proj1 (gender_normalized sample_states sample_countries
                    {| user_data := UD.set_gender (Some " Male ") no_user_data |}
                    " Male " eq_refl eq_refl) eq_refl).
  - destruct (gender_normalized sample_states sample_countries
                {| user_data := UD.set_gender (Some "Female") no_user_data |}
                "Female" eq_refl eq_refl) as (_ & H & _).
    exact (H eq_refl).
  - destruct (gender_normalized sample_states sample_countries
                {| user_data := UD.set_gender (Some "Non Binary") no_user_data |}
                "Non Binary" eq_refl eq_refl) as (_ & _ & H & _).
    apply H; discriminate.
Defined.

Lemma state_country_code_lookup_witness :
  UD.state
    (user_data
       (normalize_user_data sample_states sample_countries
          {| user_data := UD.set_state (Some "California") no_user_data |})) =
    Some "ca"
  /\ UD.state
       (user_data
          (normalize_user_data sample_states sample_countries
             {| user_data := UD.set_state (Some "Zzyzx") no_user_data |})) =
       Some "zzyzx"
  /\ UD.country
       (user_data
          (normalize_user_data sample_states sample_countries
             {| user_data :=
                  UD.set_country (Some "United States") no_user_data |})) =
       Some "us".
Proof.
  split; [|split].
  - destruct (state_country_code_lookup sample_states sample_countries
                {| user_data := UD.set_state (Some "California") no_user_data |}
                "California" eq_refl) as [H _].
    apply (proj1 (H eq_refl)). vm_compute. reflexivity.
  - destruct (state_country_code_lookup sample_states sample_countries
                {| user_data := UD.set_state (Some "Zzyzx") no_user_data |}
                "Zzyzx" eq_refl) as [H _].
    apply (proj2 (H eq_refl)). vm_compute. reflexivity.
  - destruct (state_country_code_lookup sample_states sample_countries
                {| user_data :=
                     UD.set_country (Some "United States") no_user_data |}
                "United States" eq_refl) as (_ & H & _).
    apply (proj1 (H eq_refl)). vm_compute. reflexivity.
Defined.

Lemma externalId_normalized_and_hashed_witness :
  let payload :=
    {| user_data := UD.set_externalId (Some (Str "User123")) no_user_data |} in
  UD.externalId
    (user_data (normalize_user_data sample_states sample_countries payload)) =
    Some (Arr ["user123"])
  /\ Out.external_id
       (fst (hash_user_data sample_states sample_countries sample_digest
               payload)) =
       Some (Arr [processHashingV2 sample_digest "user123"]).
Proof.
  cbv zeta.
  destruct (externalId_normalized_and_hashed sample_states sample_countries
              sample_digest
              {| user_data :=
                   UD.set_externalId (Some (Str "User123")) no_user_data |})
    as [H _].
  exact (H "User123" eq_refl eq_refl).
Defined.

Lemma normalized_fields_clean_witness :
  let u' :=
    user_data
      (normalize_user_data sample_states sample_countries sample_payload) in
  (exists s', UD.state u' = Some s' /\ is_clean s' = true)
  /\ (exists s', UD.phone u' = Some s' /\ is_clean s' = true)
  /\ (exists l, UD.externalId u' = Some (Arr l)
        /\ Forall (fun el => is_clean el = true) l).
Proof.
  cbv zeta.
  destruct (normalized_fields_clean sample_states sample_countries
              sample_payload
              (canonical_table_clean _ sample_states_canonical)
              (canonical_table_clean _ sample_countries_canonical))
    as (Htext & Hphone & Hext).
  split; [|split].
  - apply (Htext UD.state) with (s := "California");
      [simpl; tauto|reflexivity|reflexivity].
  - destruct (Hphone "+1 (555) 123-4567" eq_refl eq_refl)
      as (s' & Hs' & Hclean & _).
    exists s'. split; [exact Hs'|]. apply Hclean. reflexivity.
  - apply Hext. reflexivity.
Defined.

(** The table condition of C1 is needed: with a code that the table maps
    further, a second normalization moves the state again. *)
Lemma idempotence_needs_canonical_table :
  let table : gmap string string := {[ "georgia" := "ga"; "ga" := "ge" ]} in
  let payload := {| user_data := UD.set_state (Some "Georgia") no_user_data |} in
  UD.state (user_data (normalize_user_data table table payload)) = Some "ga"
  /\ UD.state
       (user_data
          (normalize_user_data table table
             (normalize_user_data table table payload))) = Some "ge".
Proof. vm_compute. split; reflexivity. Qed.

(** ** Table keys that cannot be reached *)

Lemma field_coded_delete (table : gmap string string) (k : string)
    (v : option string) :
  is_clean k = false ->
  field_coded (delete k table) v = field_coded table v.
Proof.
  intros Hk. destruct v as [s|]; [|reflexivity]. simpl.
  destruct (truthy s); [|reflexivity].
  rewrite lookup_delete_ne; [reflexivity|].
  intros ->. rewrite strip_lower_clean in Hk. discriminate.
Qed.

(** X12. The tables are only ever asked for lower-case text without white
    space, so an entry whose key holds an upper-case or white-space code
    unit (such as "New York") is never used: removing it from both tables
    changes the normalization of no payload. *)
Theorem unclean_table_keys_are_unused
    (states countries : gmap string string) (k : string)
    (payload : UserData) :
  is_clean k = false ->
  normalize_user_data (delete k states) (delete k countries) payload =
  normalize_user_data states countries payload.
Proof.
  intros Hk. rewrite !normalize_user_data_fields. cbv zeta.
  rewrite !(field_coded_delete _ k _ Hk). reflexivity.
Qed.

(** ** Instances of the further properties *)

Lemma short_phone_is_digit_stripped_witness :
  UD.phone
    (user_data
       (normalize_user_data sample_states sample_countries
          {| user_data := UD.set_phone (Some "tel. 030/12 34-56") no_user_data |})) =
    Some "030123456".
Proof.
  exact (proj1 (proj2 (short_phone_is_digit_stripped sample_states
                         sample_countries
                         {| user_data :=
                              UD.set_phone (Some "tel. 030/12 34-56")
                                no_user_data |}
                         "tel. 030/12 34-56" eq_refl
                         ltac:(vm_compute; lia)))).
Defined.

Lemma normalized_phone_shape_witness :
  string_forallb is_digit "15551234567" = true
  \/ (isHashedInformation "15551234567" = true
      /\ UD.phone (user_data sample_payload) = Some "15551234567").
Proof.
  exact (normalized_phone_shape sample_states sample_countries sample_payload
           "15551234567" eq_refl).
Defined.

Lemma output_ignores_case_and_whitespace_witness :
  hash_user_data sample_states sample_countries sample_digest
    {| user_data := UD.set_email (Some " Test@Example.COM ") no_user_data |} =
  hash_user_data sample_states sample_countries sample_digest
    {| user_data := UD.set_email (Some "test@ example.com") no_user_data |}.
Proof.
  apply (proj1 (output_ignores_case_and_whitespace sample_states
                  sample_countries sample_digest no_user_data
                  " Test@Example.COM " "test@ example.com")).
  - repeat first
      [ apply same_text_empty
      | apply same_text_char; [reflexivity|]
      | apply same_text_space_l; [reflexivity|]
      | apply same_text_space_r; [reflexivity|] ].
  - simpl. tauto.
Defined.

Lemma gender_codes_witness :
  let result :=
    UD.gender
      (user_data
         (normalize_user_data sample_states sample_countries
            {| user_data := UD.set_gender (Some "FE MALE") no_user_data |})) in
  result <> Some "female" /\ result = Some "f".
Proof.
  cbv zeta.
  destruct (gender_codes sample_states sample_countries
              {| user_data := UD.set_gender (Some "FE MALE") no_user_data |}
              "FE MALE" eq_refl) as (_ & Hf & _ & Hiff).
  split; [exact Hf|]. apply Hiff. right. reflexivity.
Defined.

Lemma unclean_table_keys_are_unused_witness :
  let states : gmap string string :=
    {[ "New York" := "ny"; "california" := "ca" ]} in
  let payload :=
    {| user_data := UD.set_state (Some "New York") no_user_data |} in
  normalize_user_data (delete "New York" states)
    (delete "New York" sample_countries) payload =
  normalize_user_data states sample_countries payload.
Proof.
  cbv zeta.
  exact (unclean_table_keys_are_unused
           {[ "New York" := "ny"; "california" := "ca" ]} sample_countries
           "New York"
           {| user_data := UD.set_state (Some "New York") no_user_data |}
           eq_refl).
Defined.
